(** * komle.soap_client: a WITSML Store client over SOAP

    A shallow embedding of [komle/soap_client.py] and the properties of its
    natural-language specification.

    The module is glue between three libraries: [requests] (HTTP), [suds]
    (SOAP) and the pyxb-generated [witsml] binding.  The code of the module
    itself is embedded definition by definition; of the libraries only the
    contract the module relies on is modelled:
    - [requests.post] sends one HTTP request and either answers with a
      [Response] or raises; [Response.raise_for_status] raises [HTTPError]
      for the status codes 400..599;
    - a [suds] service method marshals its arguments into an envelope, hands
      one [Request] to the [send] of the transport set in the client's
      options, and unmarshals the [Reply];
    - the [witsml] binding is an interface ([witsml_binding]): the module
      picks the read or the write binding when it is imported. *)

From Stdlib Require Import Ascii.
From stdpp Require Import gmap strings list pretty.

Open Scope Z_scope.
Open Scope string_scope.

(** ** Python values passed as keyword arguments *)

Inductive pyval :=
| PNone
| PBool (b : bool)
| PStr (s : string).

(** [kwargs.pop(key, None)]: the value stored under [key], or [None], and the
    dictionary without [key]. *)
Definition pop (key : string) (kwargs : gmap string pyval)
    : pyval * gmap string pyval :=
  (default PNone (kwargs !! key), delete key kwargs).

(** ** The data that crosses the wire *)

(** The object a [suds] service method of the Store returns. *)
Record store_reply := {
  Result : Z;
  SuppMsgOut : string;
  XMLout : string;
}.

(** One invocation of a service method of [WMLS.WSDL]. *)
Record rpc := {
  operation : string;
  WMLtypeIn : string;
  XMLin : string;
  OptionsIn : option string;
  CapabilitiesIn : option string;
}.

(** [suds.transport.Request] and [suds.transport.Reply]. *)
Record Request := {
  url : string;
  message : string;
  headers : gmap string string;
}.

Record Reply := {
  reply_code : Z;
  reply_headers : gmap string string;
  reply_message : string;
}.

Module requests.

Inductive verb := GET | POST.

(** What [requests] is asked to put on the wire. *)
Record call := {
  method : verb;
  call_url : string;
  data : string;
  call_headers : gmap string string;
  verify : pyval;
  auth : pyval * pyval;
}.

Record Response := {
  status_code : Z;
  resp_headers : gmap string string;
  content : string;
}.

(** A request is answered, or fails before any answer (no connection, TLS
    verification failure, timeout). *)
Inductive answer :=
| Answered (resp : Response)
| Failed (why : string).

End requests.

(** ** Exceptions, outcomes and the world *)

Inductive exn :=
| StoreException (msg : string) (reply : store_reply)
| HTTPError (resp : requests.Response)
| RequestException (why : string)
| PyxbException (what : string)
| SudsException (what : string).

Inductive outcome (A : Type) :=
| Returned (a : A)
| Raised (e : exn).
Arguments Returned {A} a.
Arguments Raised {A} e.

(** The world outside the process: the remote end, which answers the latest
    HTTP request in view of all requests sent so far; the requests sent,
    oldest first; the service methods invoked, oldest first. *)
Record world := {
  remote : list requests.call -> requests.answer;
  posts : list requests.call;
  invoked : list rpc;
}.

(** Computations that read and change the world and may raise. *)
Definition M (A : Type) : Type := world -> outcome A * world.

Definition ret {A} (a : A) : M A := fun w => (Returned a, w).

Definition raise {A} (e : exn) : M A := fun w => (Raised e, w).

Definition bind {A B} (m : M A) (k : A -> M B) : M B :=
  fun w =>
    match m w with
    | (Returned a, w') => k a w'
    | (Raised e, w') => (Raised e, w')
    end.

Definition lift {A} (o : outcome A) : M A := fun w => (o, w).

Notation "x <- m ;; k" := (bind m (fun x => k))
  (at level 100, m at next level, right associativity).
Notation "m ;;; k" := (bind m (fun _ => k))
  (at level 100, right associativity).

(** ** requests *)

Module requests_api.
Import requests.

(** [requests.post(url, data=, headers=, verify=, auth=)] *)
Definition post (url data : string) (headers : gmap string string)
    (verify : pyval) (auth : pyval * pyval) : M Response :=
  fun w =>
    let c := {| method := POST; call_url := url; data := data;
                call_headers := headers; verify := verify; auth := auth |} in
    let sent := (posts w ++ [c])%list in
    let w' := {| remote := remote w; posts := sent; invoked := invoked w |} in
    match remote w sent with
    | Answered resp => (Returned resp, w')
    | Failed why => (Raised (RequestException why), w')
    end.

(** [Response.raise_for_status()] *)
Definition raise_for_status (resp : Response) : M unit :=
  if bool_decide (400 <= status_code resp < 500) then raise (HTTPError resp)
  else if bool_decide (500 <= status_code resp < 600) then raise (HTTPError resp)
  else ret tt.

End requests_api.

(** ** RequestsTransport *)

Record RequestsTransport := {
  transport_verify : pyval;
  transport_auth : pyval * pyval;
  transport_options : gmap string pyval;
}.

(** [RequestsTransport.__init__(self, **kwargs)]; what is left of [kwargs]
    goes to [HttpAuthenticated.__init__]. *)
Definition RequestsTransport__init__ (kwargs : gmap string pyval)
    : RequestsTransport :=
  let '(verify, kwargs) := pop "verify" kwargs in
  let '(username, kwargs) := pop "username" kwargs in
  let '(password, kwargs) := pop "password" kwargs in
  {| transport_verify := verify;
     transport_auth := (username, password);
     transport_options := kwargs |}.

(** [RequestsTransport.send(self, request)] *)
Definition send (self : RequestsTransport) (request : Request) : M Reply :=
  resp <- requests_api.post (url request) (message request) (headers request)
            (transport_verify self) (transport_auth self) ;;
  requests_api.raise_for_status resp ;;;
  let result := {| reply_code := requests.status_code resp;
                   reply_headers := requests.resp_headers resp;
                   reply_message := requests.content resp |} in
  ret result.

(** ** suds *)

(** The transport in a client's options: the one [suds] installs itself, or
    a [RequestsTransport], whose [send] overrides the inherited one. *)
Inductive Transport :=
| DefaultTransport
| Requests (t : RequestsTransport).

Record Client := {
  wsdl : string;
  location : string;
  transport : Transport;
  client_headers : gmap string string;
}.

(** [Client(url, location=...)] *)
Definition Client__init__ (wsdl_url location : string) : Client :=
  {| wsdl := wsdl_url; location := location;
     transport := DefaultTransport; client_headers := ∅ |}.

(** [client.set_options(transport=..., headers=...)] *)
Definition set_options (client : Client) (transport : Transport)
    (headers : gmap string string) : Client :=
  {| wsdl := wsdl client; location := location client;
     transport := transport; client_headers := headers |}.

(** Ghost step: the service method invoked is written into the world. *)
Definition note_invocation (call : rpc) : M unit :=
  fun w =>
    (Returned tt,
     {| remote := remote w; posts := posts w;
        invoked := (invoked w ++ [call])%list |}).

(** What [unmarshal] makes of a [Reply]: the reply object, or a [suds]
    exception (a fault, an envelope that does not parse). *)
Inductive unmarshalled :=
| Unmarshalled (reply : store_reply)
| Fault (what : string).

Definition lift_suds (u : unmarshalled) : M store_reply :=
  match u with
  | Unmarshalled reply => ret reply
  | Fault what => raise (SudsException what)
  end.

Section suds.

(** The SOAP encoding of [WMLS.WSDL], and the inherited [send] of the
    transport [suds] installs itself. *)
Variable envelope : rpc -> string.
Variable soap_headers : rpc -> gmap string string.
Variable unmarshal : Reply -> unmarshalled.
Variable urlopen : Request -> M Reply.

Definition transport_send (t : Transport) (request : Request) : M Reply :=
  match t with
  | Requests t => send t request
  | DefaultTransport => urlopen request
  end.

(** A service method: one [Request] through the client's transport. *)
Definition invoke (client : Client) (call : rpc) : M store_reply :=
  note_invocation call ;;;
  reply <- transport_send (transport client)
             {| url := location client;
                message := envelope call;
                headers := client_headers client ∪ soap_headers call |} ;;
  lift_suds (unmarshal reply).

(** [client.service.WMLS_GetFromStore(WMLtypeIn, XMLin, OptionsIn=...,
    CapabilitiesIn=...)] *)
Definition WMLS_GetFromStore (client : Client) (WMLtypeIn XMLin : string)
    (OptionsIn CapabilitiesIn : option string) : M store_reply :=
  invoke client
    {| operation := "WMLS_GetFromStore"; WMLtypeIn := WMLtypeIn;
       XMLin := XMLin; OptionsIn := OptionsIn;
       CapabilitiesIn := CapabilitiesIn |}.

End suds.

(** ** The witsml binding *)

(** The classes of data objects and of their collections that the client
    names. *)
Inductive singular :=
| obj_bhaRun | obj_log | obj_mudLog | obj_trajectory | obj_wellbore
| obj_tubular | obj_fluidsReport | obj_drillReport | obj_wbGeometry
| obj_formationMarker.

Inductive plural :=
| bhaRuns | logs | mudLogs | trajectorys | wellbores
| tubulars | fluidsReports | drillReports | wbGeometrys
| formationMarkers.

(** The class of the members of a collection. *)
Definition member (p : plural) : singular :=
  match p with
  | bhaRuns => obj_bhaRun
  | logs => obj_log
  | mudLogs => obj_mudLog
  | trajectorys => obj_trajectory
  | wellbores => obj_wellbore
  | tubulars => obj_tubular
  | fluidsReports => obj_fluidsReport
  | drillReports => obj_drillReport
  | wbGeometrys => obj_wbGeometry
  | formationMarkers => obj_formationMarker
  end.

(** An instance of a collection class. *)
Record collection (obj : singular -> Type) (p : plural) := {
  version : string;
  members : list (obj (member p));
}.
Arguments version {obj p} _.
Arguments members {obj p} _.

(** What [CreateFromDocument] makes of a document: a binding instance, or a
    pyxb exception. *)
Inductive parsed (A : Type) :=
| Instance (a : A)
| Invalid (what : string).
Arguments Instance {A} a.
Arguments Invalid {A} what.

(** [komle.bindings.v1411.read.witsml] or [komle.bindings.v1411.write.witsml],
    whichever the module imported. *)
Class witsml_binding := {
  obj : singular -> Type;
  document : Type;
  witsml_version : string;
  toxml : forall p, collection obj p -> string;
  CreateFromDocument : string -> parsed document;
}.

Definition lift_pyxb {A} (d : parsed A) : outcome A :=
  match d with
  | Instance a => Returned a
  | Invalid what => Raised (PyxbException what)
  end.

(** [witsml.<plural>(version=...)] *)
Definition new {obj} (p : plural) (version : string) : collection obj p :=
  {| version := version; members := [] |}.

(** [collection.append(o)] *)
Definition append {obj p} (c : collection obj p) (o : obj (member p))
    : collection obj p :=
  {| version := version c; members := (members c ++ [o])%list |}.

(** ** simple_client, StoreException, _parse_reply *)

Section client.

Variable wsdl_url : string.
Variable envelope : rpc -> string.
Variable soap_headers : rpc -> gmap string string.
Variable unmarshal : Reply -> unmarshalled.
Variable urlopen : Request -> M Reply.
Context {binding : witsml_binding}.

Definition simple_client (service_url username password : string)
    (agent_name : option string) (verify : option pyval) : Client :=
  let agent_name := default "komle" agent_name in
  let verify := default (PBool true) verify in
  let transport :=
    RequestsTransport__init__
      (<["username" := PStr username]>
         (<["password" := PStr password]>
            (<["verify" := verify]> ∅))) in
  let client := Client__init__ wsdl_url service_url in
  let client :=
    set_options client (Requests transport) {["User-Agent" := agent_name]} in
  client.

(** [StoreException.__init__(self, reply)] *)
Definition StoreException__init__ (reply : store_reply) : exn :=
  StoreException (pretty (Result reply) +:+ ": " +:+ SuppMsgOut reply) reply.

Definition _parse_reply (reply : store_reply) : outcome document :=
  if decide (Result reply = 1) then
    lift_pyxb (CreateFromDocument (XMLout reply))
  else if decide (Result reply = 2) then
    lift_pyxb (CreateFromDocument (XMLout reply))
  else
    Raised (StoreException__init__ reply).

(** ** StoreClient *)

Record StoreClient := {
  soap_client : Client;
}.

Definition StoreClient__init__ (service_url username password : string)
    (agent_name : option string) (verify : option pyval) : StoreClient :=
  let agent_name := default "komle" agent_name in
  let verify := default (PBool true) verify in
  {| soap_client :=
       simple_client service_url username password
         (Some agent_name) (Some verify) |}.

(** [self.soap_client.service.WMLS_GetFromStore] *)
Definition service_WMLS_GetFromStore (self : StoreClient) :=
  WMLS_GetFromStore envelope soap_headers unmarshal urlopen
    (soap_client self).

(** The getters.  An omitted [returnElements] is [None] here and takes the
    default of the signature. *)

Definition get_bhaRuns (self : StoreClient) (q_bha : obj obj_bhaRun)
    (returnElements : option string) : M document :=
  let returnElements := default "id-only" returnElements in
  let q_bhas := new bhaRuns witsml_version in
  let q_bhas := append q_bhas q_bha in
  reply_bhas <- service_WMLS_GetFromStore self "bhaRun"
    (toxml bhaRuns q_bhas)
    (Some ("returnElements=" +:+ returnElements)) None ;;
  lift (_parse_reply reply_bhas).

Definition get_logs (self : StoreClient) (q_log : obj obj_log)
    (returnElements : option string) : M document :=
  let returnElements := default "id-only" returnElements in
  let q_logs := new logs witsml_version in
  let q_logs := append q_logs q_log in
  reply_logs <- service_WMLS_GetFromStore self "log"
    (toxml logs q_logs)
    (Some ("returnElements=" +:+ returnElements)) None ;;
  lift (_parse_reply reply_logs).

Definition get_mudLogs (self : StoreClient) (q_mudlog : obj obj_mudLog)
    (returnElements : option string) : M document :=
  let returnElements := default "id-only" returnElements in
  let q_mudlogs := new mudLogs witsml_version in
  let q_mudlogs := append q_mudlogs q_mudlog in
  reply_mudlogs <- service_WMLS_GetFromStore self "mudLog"
    (toxml mudLogs q_mudlogs)
    (Some ("returnElements=" +:+ returnElements)) None ;;
  lift (_parse_reply reply_mudlogs).

Definition get_trajectorys (self : StoreClient) (q_traj : obj obj_trajectory)
    (returnElements : option string) : M document :=
  let returnElements := default "id-only" returnElements in
  let q_trajs := new trajectorys witsml_version in
  let q_trajs := append q_trajs q_traj in
  reply_traj <- service_WMLS_GetFromStore self "trajectory"
    (toxml trajectorys q_trajs)
    (Some ("returnElements=" +:+ returnElements)) None ;;
  lift (_parse_reply reply_traj).

Definition get_wellbores (self : StoreClient) (q_wellbore : obj obj_wellbore)
    (returnElements : option string) : M document :=
  let returnElements := default "id-only" returnElements in
  let q_wellbores := new wellbores witsml_version in
  let q_wellbores := append q_wellbores q_wellbore in
  reply_wellbores <- service_WMLS_GetFromStore self "wellbore"
    (toxml wellbores q_wellbores)
    (Some ("returnElements=" +:+ returnElements)) None ;;
  lift (_parse_reply reply_wellbores).

Definition get_tubulars (self : StoreClient) (q_tubular : obj obj_tubular)
    (returnElements : option string) : M document :=
  let returnElements := default "id-only" returnElements in
  let q_tubulars := new tubulars witsml_version in
  let q_tubulars := append q_tubulars q_tubular in
  reply_tubular <- service_WMLS_GetFromStore self "tubular"
    (toxml tubulars q_tubulars)
    (Some ("returnElements=" +:+ returnElements)) None ;;
  lift (_parse_reply reply_tubular).

Definition get_fluidsReports (self : StoreClient) (q_fluidsReport : obj obj_fluidsReport)
    (returnElements : option string) : M document :=
  let returnElements := default "id-only" returnElements in
  let q_fluidsReports := new fluidsReports witsml_version in
  let q_fluidsReports := append q_fluidsReports q_fluidsReport in
  reply_fluidsReport <- service_WMLS_GetFromStore self "fluidsReport"
    (toxml fluidsReports q_fluidsReports)
    (Some ("returnElements=" +:+ returnElements)) None ;;
  lift (_parse_reply reply_fluidsReport).

Definition get_drillReports (self : StoreClient) (q_drillReport : obj obj_drillReport)
    (returnElements : option string) : M document :=
  let returnElements := default "id-only" returnElements in
  let q_drillReports := new drillReports witsml_version in
  let q_drillReports := append q_drillReports q_drillReport in
  reply_drillReport <- service_WMLS_GetFromStore self "drillReport"
    (toxml drillReports q_drillReports)
    (Some ("returnElements=" +:+ returnElements)) None ;;
  lift (_parse_reply reply_drillReport).

Definition get_wbGeometrys (self : StoreClient) (q_wbGeometry : obj obj_wbGeometry)
    (returnElements : option string) : M document :=
  let returnElements := default "id-only" returnElements in
  let q_wbGeometrys := new wbGeometrys witsml_version in
  let q_wbGeometrys := append q_wbGeometrys q_wbGeometry in
  reply_wbGeometry <- service_WMLS_GetFromStore self "wbGeometry"
    (toxml wbGeometrys q_wbGeometrys)
    (Some ("returnElements=" +:+ returnElements)) None ;;
  lift (_parse_reply reply_wbGeometry).

Definition get_formationMarkers (self : StoreClient) (q_formationMarker : obj obj_formationMarker)
    (returnElements : option string) : M document :=
  let returnElements := default "id-only" returnElements in
  let q_formationMarkers := new formationMarkers witsml_version in
  let q_formationMarkers := append q_formationMarkers q_formationMarker in
  reply_formationMarker <- service_WMLS_GetFromStore self "formationMarker"
    (toxml formationMarkers q_formationMarkers)
    (Some ("returnElements=" +:+ returnElements)) None ;;
  lift (_parse_reply reply_formationMarker).

End client.

(** ** The ten getters as one family *)

(** The getter of a collection class, by the class it returns. *)
Definition getter {binding : witsml_binding}
    (envelope : rpc -> string) (soap_headers : rpc -> gmap string string)
    (unmarshal : Reply -> unmarshalled) (urlopen : Request -> M Reply)
    (p : plural)
    : StoreClient -> obj (member p) -> option string -> M document :=
  match p with
  | bhaRuns => get_bhaRuns envelope soap_headers unmarshal urlopen
  | logs => get_logs envelope soap_headers unmarshal urlopen
  | mudLogs => get_mudLogs envelope soap_headers unmarshal urlopen
  | trajectorys => get_trajectorys envelope soap_headers unmarshal urlopen
  | wellbores => get_wellbores envelope soap_headers unmarshal urlopen
  | tubulars => get_tubulars envelope soap_headers unmarshal urlopen
  | fluidsReports => get_fluidsReports envelope soap_headers unmarshal urlopen
  | drillReports => get_drillReports envelope soap_headers unmarshal urlopen
  | wbGeometrys => get_wbGeometrys envelope soap_headers unmarshal urlopen
  | formationMarkers =>
      get_formationMarkers envelope soap_headers unmarshal urlopen
  end.

(** The name of a collection class in the binding. *)
Definition plural_name (p : plural) : string :=
  match p with
  | bhaRuns => "bhaRuns"
  | logs => "logs"
  | mudLogs => "mudLogs"
  | trajectorys => "trajectorys"
  | wellbores => "wellbores"
  | tubulars => "tubulars"
  | fluidsReports => "fluidsReports"
  | drillReports => "drillReports"
  | wbGeometrys => "wbGeometrys"
  | formationMarkers => "formationMarkers"
  end.

Fixpoint drop_last (s : string) : string :=
  match s with
  | EmptyString => EmptyString
  | String c rest =>
      match rest with
      | EmptyString => EmptyString
      | String _ _ => String c (drop_last rest)
      end
  end.

(** The WITSML object type of the members of a collection: the name of the
    collection without its plural ending ([get_logs] asks for ['log']). *)
Definition object_type (p : plural) : string := drop_last (plural_name p).

(** The values of [returnElements] the docstrings of the getters list. *)
Definition recognized_returnElements : list string :=
  ["all"; "id-only"; "header-only"; "data-only"; "station-location-only";
   "latest-change-only"; "requested"].

(** The options string a getter sends for a given [returnElements]. *)
Definition options_in (returnElements : string) : string :=
  "returnElements=" +:+ returnElements.

(** The invocation a getter is expected to make. *)
Definition expected_rpc {binding : witsml_binding} (p : plural)
    (q : obj (member p)) (returnElements : string) : rpc :=
  {| operation := "WMLS_GetFromStore";
     WMLtypeIn := object_type p;
     XMLin := toxml p {| version := witsml_version; members := [q] |};
     OptionsIn := Some (options_in returnElements);
     CapabilitiesIn := None |}.

(** The HTTP request a [RequestsTransport] is expected to make for a
    [Request]. *)
Definition expected_post (verify : pyval) (username password : string)
    (request : Request) : requests.call :=
  {| requests.method := requests.POST;
     requests.call_url := url request;
     requests.data := message request;
     requests.call_headers := headers request;
     requests.verify := verify;
     requests.auth := (PStr username, PStr password) |}.

(** The [Request] [suds] hands to the transport for an invocation. *)
Definition soap_request (envelope : rpc -> string)
    (soap_headers : rpc -> gmap string string)
    (client : Client) (call : rpc) : Request :=
  {| url := location client;
     message := envelope call;
     headers := client_headers client ∪ soap_headers call |}.

(** [part] occurs in [whole]. *)
Definition contains (part whole : string) : Prop :=
  exists before after, whole = before +:+ part +:+ after.

(** A status code for which [raise_for_status] raises. *)
Definition error_status (code : Z) : Prop := 400 <= code < 600.

(** ** A small instance to run the client on *)

Module demo.

(** Objects are their own XML text; a document is the text it came from. *)
#[local] Instance binding : witsml_binding := {|
  obj := fun _ => string;
  document := string;
  witsml_version := "1.4.1.1";
  toxml := fun p c =>
    "<" +:+ plural_name p +:+ " version='" +:+ version c +:+ "'>"
    +:+ String.concat "" (members c) +:+ "</" +:+ plural_name p +:+ ">";
  CreateFromDocument := fun text =>
    if decide (text = "") then Invalid "empty document" else Instance text;
|}.

Definition envelope (call : rpc) : string :=
  operation call +:+ "(" +:+ WMLtypeIn call +:+ "," +:+ XMLin call +:+ ","
  +:+ default "" (OptionsIn call) +:+ ")".

Definition soap_headers (call : rpc) : gmap string string :=
  {["SOAPAction" := operation call]}.

(** The result code travels in a header, the output XML in the body. *)
Definition unmarshal (reply : Reply) : unmarshalled :=
  match reply_headers reply !! "Result" with
  | Some code =>
      Unmarshalled
        {| Result := if decide (code = "1") then 1
                     else if decide (code = "2") then 2 else -425;
           SuppMsgOut := default "" (reply_headers reply !! "SuppMsgOut");
           XMLout := reply_message reply |}
  | None => Fault "no result"
  end.

Definition urlopen (request : Request) : M Reply :=
  raise (RequestException "no transport").

Definition response (status : Z) (code text : string) : requests.Response :=
  {| requests.status_code := status;
     requests.resp_headers :=
       <["Result" := code]> {["SuppMsgOut" := "note"]};
     requests.content := text |}.

(** A world whose remote end always gives the same answer. *)
Definition world_answering (a : requests.answer) : world :=
  {| remote := fun _ => a; posts := []; invoked := [] |}.

Definition store : StoreClient :=
  StoreClient__init__ "file:WMLS.WSDL" "https://store/wmls" "user" "secret"
    None None.

End demo.

(** ** What a getter is expected to do *)

(** The world after one more invocation and one more HTTP request. *)
Definition after_call (w : world) (call : rpc) (c : requests.call) : world :=
  {| remote := remote w;
     posts := (posts w ++ [c])%list;
     invoked := (invoked w ++ [call])%list |}.

(** The service call of the getter for [p], as the claims describe it. *)
Definition getter_request {binding : witsml_binding}
    (envelope : rpc -> string) (soap_headers : rpc -> gmap string string)
    (unmarshal : Reply -> unmarshalled) (urlopen : Request -> M Reply)
    (p : plural) (self : StoreClient) (q : obj (member p))
    (returnElements : string) : M store_reply :=
  service_WMLS_GetFromStore envelope soap_headers unmarshal urlopen self
    (object_type p)
    (toxml p {| version := witsml_version; members := [q] |})
    (Some (options_in returnElements)) None.

(** The [Reply] [send] builds from a response. *)
Definition reply_of (resp : requests.Response) : Reply :=
  {| reply_code := requests.status_code resp;
     reply_headers := requests.resp_headers resp;
     reply_message := requests.content resp |}.

(** The HTTP request expected of a client made by [StoreClient] for an
    invocation. *)
Definition store_post (wsdl_url : string) (envelope : rpc -> string)
    (soap_headers : rpc -> gmap string string)
    (service_url username password : string)
    (agent_name : option string) (verify : option pyval) (call : rpc)
    : requests.call :=
  expected_post (default (PBool true) verify) username password
    (soap_request envelope soap_headers
       (soap_client (StoreClient__init__ wsdl_url service_url username
                       password agent_name verify))
       call).

(** The HTTP request [send] of a transport makes for a [Request]. *)
Definition wire (t : RequestsTransport) (request : Request) : requests.call :=
  {| requests.method := requests.POST;
     requests.call_url := url request;
     requests.data := message request;
     requests.call_headers := headers request;
     requests.verify := transport_verify t;
     requests.auth := transport_auth t |}.


(** * Properties *)

(** ** Strings *)

Lemma append_assoc (a b c : string) : (a +:+ b) +:+ c = a +:+ b +:+ c.
Proof.
  induction a as [|x a IH]; [reflexivity|].
  change (String x ((a +:+ b) +:+ c) = String x (a +:+ b +:+ c)).
  now rewrite IH.
Qed.

Lemma append_empty_r (a : string) : a +:+ "" = a.
Proof.
  induction a as [|x a IH]; [reflexivity|].
  change (String x (a +:+ "") = String x a).
  now rewrite IH.
Qed.

Lemma contains_head (a b : string) : contains a (a +:+ b).
Proof. exists "", b. reflexivity. Qed.

Lemma contains_tail (a b : string) : contains b (a +:+ b).
Proof. exists a, "". now rewrite append_empty_r. Qed.

(** ** The monad *)

Lemma bind_returned {A B} (m : M A) (k : A -> M B) w a w' :
  m w = (Returned a, w') -> bind m k w = k a w'.
Proof. unfold bind. now intros ->. Qed.

(** ** The transport *)

(** [send] in one step: the request goes out, then the answer decides. *)
Lemma send_run (t : RequestsTransport) (rq : Request) (w : world) :
  let c := wire t rq in
  let w' := {| remote := remote w; posts := (posts w ++ [c])%list;
               invoked := invoked w |} in
  send t rq w =
  match remote w (posts w ++ [c])%list with
  | requests.Answered resp =>
      if bool_decide (error_status (requests.status_code resp))
      then (Raised (HTTPError resp), w')
      else (Returned (reply_of resp), w')
  | requests.Failed why => (Raised (RequestException why), w')
  end.
Proof.
  intros c w'. unfold send, bind, requests_api.post.
  fold (wire t rq). fold c. fold w'.
  destruct (remote w (posts w ++ [c])%list) as [resp|why]; [|reflexivity].
  unfold requests_api.raise_for_status, raise, ret, error_status.
  repeat case_bool_decide; try reflexivity; lia.
Qed.

(** The transport [simple_client] installs. *)
Lemma simple_client_transport (wsdl_url service_url username password : string)
    (agent_name : option string) (verify : option pyval) :
  transport (simple_client wsdl_url service_url username password
               agent_name verify) =
  Requests {| transport_verify := default (PBool true) verify;
              transport_auth := (PStr username, PStr password);
              transport_options := ∅ |}.
Proof. reflexivity. Qed.

(** ** The getters *)

Section getters.

Variable wsdl_url : string.
Variable envelope : rpc -> string.
Variable soap_headers : rpc -> gmap string string.
Variable unmarshal : Reply -> unmarshalled.
Variable urlopen : Request -> M Reply.
Context {binding : witsml_binding}.

Local Abbreviation get := (getter envelope soap_headers unmarshal urlopen).
Local Abbreviation request :=
  (getter_request envelope soap_headers unmarshal urlopen).
Local Abbreviation StoreClient_new := (StoreClient__init__ wsdl_url).
Local Abbreviation post_of := (store_post wsdl_url envelope soap_headers).

(** Every getter is its service call followed by [_parse_reply]. *)
Lemma getter_unfold (p : plural) (self : StoreClient) (q : obj (member p))
    (returnElements : option string) :
  get p self q returnElements =
  (reply <- request p self q (default "id-only" returnElements) ;;
   lift (_parse_reply reply)).
Proof. destruct p; reflexivity. Qed.

Lemma getter_returned (p : plural) (self : StoreClient) (q : obj (member p))
    (returnElements : option string) (w w' : world) (reply : store_reply) :
  request p self q (default "id-only" returnElements) w = (Returned reply, w') ->
  get p self q returnElements w = (_parse_reply reply, w').
Proof.
  intros Hcall. rewrite getter_unfold.
  now rewrite (bind_returned _ _ _ _ _ Hcall).
Qed.

(** The service call of a client made by [StoreClient], in one step. *)
Lemma request_run (service_url username password : string)
    (agent_name : option string) (verify : option pyval)
    (p : plural) (q : obj (member p)) (returnElements : string) (w : world) :
  let self := StoreClient_new service_url username password agent_name verify in
  let call := expected_rpc p q returnElements in
  let c := post_of service_url username password agent_name verify call in
  let w' := after_call w call c in
  request p self q returnElements w =
  match remote w (posts w ++ [c])%list with
  | requests.Answered resp =>
      if bool_decide (error_status (requests.status_code resp))
      then (Raised (HTTPError resp), w')
      else match unmarshal (reply_of resp) with
           | Unmarshalled reply => (Returned reply, w')
           | Fault what => (Raised (SudsException what), w')
           end
  | requests.Failed why => (Raised (RequestException why), w')
  end.
Proof.
  intros self call c w'.
  unfold getter_request, service_WMLS_GetFromStore, WMLS_GetFromStore, invoke.
  fold (expected_rpc p q returnElements). fold call.
  unfold bind at 1. unfold note_invocation at 1.
  unfold bind. cbn [transport_send transport soap_client self
                    StoreClient__init__ simple_client set_options].
  rewrite send_run. cbn [posts remote invoked].
  change (remote w (posts w ++ [_])%list) with (remote w (posts w ++ [c])%list).
  destruct (remote w (posts w ++ [c])%list) as [resp|why]; [|reflexivity].
  case_bool_decide; [reflexivity|].
  destruct (unmarshal (reply_of resp)); reflexivity.
Qed.

(** The world after a getter of a client made by [StoreClient]. *)
Lemma getter_world (service_url username password : string)
    (agent_name : option string) (verify : option pyval)
    (p : plural) (q : obj (member p)) (returnElements : option string)
    (w : world) :
  let self := StoreClient_new service_url username password agent_name verify in
  let call := expected_rpc p q (default "id-only" returnElements) in
  snd (get p self q returnElements w) =
  after_call w call
    (post_of service_url username password agent_name verify call).
Proof.
  intros self call. rewrite getter_unfold. unfold bind.
  unfold self. rewrite request_run. fold call.
  destruct (remote w _) as [resp|why]; [|reflexivity].
  case_bool_decide; [reflexivity|].
  destruct (unmarshal (reply_of resp)); reflexivity.
Qed.

(** C1: a reply whose result code is neither 1 nor 2 makes [_parse_reply],
    and with it every getter, raise a [StoreException] whose message is
    the result code, a colon and a space, and the supplementary message, so
    that it contains both; nothing is returned. *)
Theorem store_exception_on_other_codes (reply : store_reply) :
  Result reply <> 1 -> Result reply <> 2 ->
  let msg := pretty (Result reply) +:+ ": " +:+ SuppMsgOut reply in
  _parse_reply reply = Raised (StoreException msg reply)
  /\ contains (pretty (Result reply)) msg
  /\ contains (SuppMsgOut reply) msg
  /\ (forall d, _parse_reply reply <> Returned d)
  /\ (forall p self q returnElements w w',
        request p self q (default "id-only" returnElements) w
          = (Returned reply, w') ->
        get p self q returnElements w
          = (Raised (StoreException msg reply), w')).
Proof.
  intros H1 H2 msg.
  assert (Hp : _parse_reply reply = Raised (StoreException msg reply)).
  { unfold _parse_reply. rewrite !decide_False by assumption. reflexivity. }
  split; [exact Hp|].
  split; [apply contains_head|].
  split.
  { unfold msg. exists (pretty (Result reply) +:+ ": "), "".
    now rewrite append_empty_r, append_assoc. }
  split.
  { intros d. rewrite Hp. discriminate. }
  intros p self q returnElements w w' Hcall.
  rewrite (getter_returned _ _ _ _ _ _ _ Hcall). now rewrite Hp.
Qed.

(** C2: a reply whose result code is 1 or 2 makes [_parse_reply] return
    exactly what [CreateFromDocument] gives for the reply's [XMLout], never
    a [StoreException]; code 2 is treated as code 1 is. *)
Theorem parse_reply_on_success_codes (reply : store_reply) :
  Result reply = 1 \/ Result reply = 2 ->
  _parse_reply reply = lift_pyxb (CreateFromDocument (XMLout reply))
  /\ (forall d, CreateFromDocument (XMLout reply) = Instance d ->
        _parse_reply reply = Returned d)
  /\ (forall msg r, _parse_reply reply <> Raised (StoreException msg r))
  /\ (forall other, Result other = 1 \/ Result other = 2 ->
        XMLout other = XMLout reply ->
        _parse_reply other = _parse_reply reply).
Proof.
  assert (Hs : forall r, Result r = 1 \/ Result r = 2 ->
            _parse_reply r = lift_pyxb (CreateFromDocument (XMLout r))).
  { intros r Hr. unfold _parse_reply.
    destruct (decide (Result r = 1)); [reflexivity|].
    destruct (decide (Result r = 2)); [reflexivity|]. tauto. }
  intros H. split; [now apply Hs|].
  split; [intros d Hd; now rewrite Hs, Hd|].
  split.
  { intros msg r. rewrite Hs by assumption.
    destruct (CreateFromDocument (XMLout reply)); discriminate. }
  intros other Ho Hx. rewrite !Hs by assumption. now rewrite Hx.
Qed.

(** C3: the getter of every collection class puts the one query object
    into a fresh collection of that class, made with the version of the
    binding; it sends the XML of that collection under the object type of
    the class and with the given [returnElements]; and when the reply has
    result code 1 or 2 it returns what is deserialized from the reply. *)
Theorem getter_round_trip (p : plural) (self : StoreClient)
    (q : obj (member p)) (returnElements : string) (w w' : world)
    (reply : store_reply) :
  Result reply = 1 \/ Result reply = 2 ->
  service_WMLS_GetFromStore envelope soap_headers unmarshal urlopen self
    (object_type p) (toxml p (append (new p witsml_version) q))
    (Some ("returnElements=" +:+ returnElements)) None w
    = (Returned reply, w') ->
  members (append (new p witsml_version) q) = [q]
  /\ version (append (new p witsml_version) q) = witsml_version
  /\ get p self q (Some returnElements) =
       (r <- service_WMLS_GetFromStore envelope soap_headers unmarshal
               urlopen self (object_type p)
               (toxml p (append (new p witsml_version) q))
               (Some ("returnElements=" +:+ returnElements)) None ;;
        lift (_parse_reply r))
  /\ get p self q (Some returnElements) w
       = (lift_pyxb (CreateFromDocument (XMLout reply)), w')
  /\ (forall d, CreateFromDocument (XMLout reply) = Instance d ->
        get p self q (Some returnElements) w = (Returned d, w')).
Proof.
  intros Hcode Hcall.
  assert (Hget : get p self q (Some returnElements) w
                 = (lift_pyxb (CreateFromDocument (XMLout reply)), w')).
  { rewrite (getter_returned p self q (Some returnElements) w w' reply Hcall).
    unfold _parse_reply.
    destruct (decide (Result reply = 1)); [reflexivity|].
    destruct (decide (Result reply = 2)); [reflexivity|]. tauto. }
  split; [reflexivity|]. split; [reflexivity|].
  split; [apply getter_unfold|].
  split; [exact Hget|].
  intros d Hd. now rewrite Hget, Hd.
Qed.

(** C4: a getter of a client made by [StoreClient] invokes
    [WMLS_GetFromStore] with the object type of its class as [WMLtypeIn]
    and ['returnElements='] followed by its [returnElements] as
    [OptionsIn]; the values of [returnElements] the getters document are
    the seven of the specification. *)
Theorem getter_invocation (service_url username password : string)
    (agent_name : option string) (verify : option pyval)
    (p : plural) (q : obj (member p)) (returnElements : option string)
    (w : world) :
  invoked (snd (get p (StoreClient_new service_url username password
                         agent_name verify) q returnElements w))
  = (invoked w ++
     [{| operation := "WMLS_GetFromStore";
         WMLtypeIn := object_type p;
         XMLin := toxml p {| version := witsml_version; members := [q] |};
         OptionsIn :=
           Some ("returnElements=" +:+ default "id-only" returnElements);
         CapabilitiesIn := None |}])%list
  /\ map object_type
       [bhaRuns; logs; mudLogs; trajectorys; wellbores; tubulars;
        fluidsReports; drillReports; wbGeometrys; formationMarkers]
     = ["bhaRun"; "log"; "mudLog"; "trajectory"; "wellbore"; "tubular";
        "fluidsReport"; "drillReport"; "wbGeometry"; "formationMarker"]
  /\ (forall s, s ∈ recognized_returnElements <->
        s = "all" \/ s = "id-only" \/ s = "header-only" \/ s = "data-only"
        \/ s = "station-location-only" \/ s = "latest-change-only"
        \/ s = "requested").
Proof.
  split; [|split].
  - rewrite getter_world. reflexivity.
  - reflexivity.
  - intros s. unfold recognized_returnElements.
    rewrite !elem_of_cons, elem_of_nil. tauto.
Qed.

(** C5: when the reply has result code 1 or 2 and [CreateFromDocument]
    raises on its [XMLout], [_parse_reply] and the getters raise that same
    pyxb exception: no [StoreException], no value. *)
Theorem invalid_document_propagates (reply : store_reply) (what : string) :
  Result reply = 1 \/ Result reply = 2 ->
  CreateFromDocument (XMLout reply) = Invalid what ->
  _parse_reply reply = Raised (PyxbException what)
  /\ (forall msg r, _parse_reply reply <> Raised (StoreException msg r))
  /\ (forall d, _parse_reply reply <> Returned d)
  /\ (forall p self q returnElements w w',
        request p self q (default "id-only" returnElements) w
          = (Returned reply, w') ->
        get p self q returnElements w = (Raised (PyxbException what), w')).
Proof.
  intros Hcode Hdoc.
  assert (Hp : _parse_reply reply = Raised (PyxbException what)).
  { unfold _parse_reply. rewrite Hdoc.
    destruct (decide (Result reply = 1)); [reflexivity|].
    destruct (decide (Result reply = 2)); [reflexivity|]. tauto. }
  split; [exact Hp|].
  split; [intros msg r; rewrite Hp; discriminate|].
  split; [intros d; rewrite Hp; discriminate|].
  intros p self q returnElements w w' Hcall.
  rewrite (getter_returned _ _ _ _ _ _ _ Hcall). now rewrite Hp.
Qed.

(** C6: a call of a getter of a client made by [StoreClient] invokes
    [WMLS_GetFromStore] once and sends one HTTP request, whatever the
    remote end answers. *)
Theorem getter_single_invocation (service_url username password : string)
    (agent_name : option string) (verify : option pyval)
    (p : plural) (q : obj (member p)) (returnElements : option string)
    (w : world) :
  let w' := snd (get p (StoreClient_new service_url username password
                          agent_name verify) q returnElements w) in
  exists call c,
    invoked w' = (invoked w ++ [call])%list
    /\ operation call = "WMLS_GetFromStore"
    /\ posts w' = (posts w ++ [c])%list
    /\ length (invoked w') = S (length (invoked w))
    /\ length (posts w') = S (length (posts w)).
Proof.
  intros w'. unfold w'. rewrite getter_world.
  eexists _, _. cbn [after_call invoked posts].
  split; [reflexivity|]. split; [reflexivity|]. split; [reflexivity|].
  rewrite !length_app. cbn [length]. lia.
Qed.

(** C7: the transport of a client made by [simple_client] sends every
    request as an HTTP POST with the user name and password of the
    construction as credentials and the [verify] of the construction; so
    does every getter of a [StoreClient]. *)
Theorem requests_carry_credentials (service_url username password : string)
    (agent_name : option string) (verify : option pyval) :
  (forall rq w,
     posts (snd (transport_send urlopen
                   (transport (simple_client wsdl_url service_url username
                                 password agent_name verify)) rq w))
     = (posts w ++
        [{| requests.method := requests.POST;
            requests.call_url := url rq;
            requests.data := message rq;
            requests.call_headers := headers rq;
            requests.verify := default (PBool true) verify;
            requests.auth := (PStr username, PStr password) |}])%list)
  /\ (forall (p : plural) (q : obj (member p)) returnElements w,
        exists c,
          posts (snd (get p (StoreClient_new service_url username password
                               agent_name verify) q returnElements w))
            = (posts w ++ [c])%list
          /\ requests.method c = requests.POST
          /\ requests.auth c = (PStr username, PStr password)
          /\ requests.verify c = default (PBool true) verify
          /\ requests.call_url c = service_url).
Proof.
  split.
  - intros rq w. rewrite simple_client_transport. cbn [transport_send].
    rewrite send_run. cbn zeta.
    destruct (remote w _) as [resp|why]; [case_bool_decide|]; reflexivity.
  - intros p q returnElements w. rewrite getter_world.
    eexists. split; [reflexivity|]. repeat split.
Qed.

(** C8: for each of the ten getters, leaving [returnElements] out is the
    same as passing ['id-only']. *)
Theorem default_returnElements (p : plural) (self : StoreClient)
    (q : obj (member p)) :
  get p self q None = get p self q (Some "id-only")
  /\ get p self q None =
       (reply <- request p self q "id-only" ;; lift (_parse_reply reply)).
Proof. split; [destruct p; reflexivity | apply getter_unfold]. Qed.

(** C9: [returnElements] is not validated: whatever string it is, a getter
    starts with the service call, whose [OptionsIn] is ['returnElements=']
    followed by that string, and the HTTP request goes out. *)
Theorem returnElements_not_validated (service_url username password : string)
    (agent_name : option string) (verify : option pyval)
    (p : plural) (q : obj (member p)) (s : string) (w : world) :
  let self := StoreClient_new service_url username password agent_name verify in
  let call := {| operation := "WMLS_GetFromStore";
                 WMLtypeIn := object_type p;
                 XMLin := toxml p
                            {| version := witsml_version; members := [q] |};
                 OptionsIn := Some ("returnElements=" +:+ s);
                 CapabilitiesIn := None |} in
  get p self q (Some s) =
    (reply <- service_WMLS_GetFromStore envelope soap_headers unmarshal
                urlopen self (WMLtypeIn call) (XMLin call) (OptionsIn call)
                None ;;
     lift (_parse_reply reply))
  /\ invoked (snd (get p self q (Some s) w)) = (invoked w ++ [call])%list
  /\ exists c,
       posts (snd (get p self q (Some s) w)) = (posts w ++ [c])%list
       /\ requests.data c = envelope call.
Proof.
  intros self call. split; [apply getter_unfold|].
  unfold self. rewrite getter_world. split; [reflexivity|].
  eexists. split; reflexivity.
Qed.

(** C10: when the remote end answers with a status code from 400 to 599,
    [send] raises the HTTP error and builds no [Reply], and a getter raises
    it too, whatever the body; for any other status code [send] returns the
    [Reply] made of the status code, the headers and the content of the
    response. *)
Theorem send_raises_for_status (t : RequestsTransport) (rq : Request)
    (w : world) (resp : requests.Response) :
  remote w (posts w ++ [wire t rq])%list = requests.Answered resp ->
  (400 <= requests.status_code resp < 600 ->
     fst (send t rq w) = Raised (HTTPError resp))
  /\ (~ 400 <= requests.status_code resp < 600 ->
        fst (send t rq w) =
        Returned {| reply_code := requests.status_code resp;
                    reply_headers := requests.resp_headers resp;
                    reply_message := requests.content resp |})
  /\ (forall service_url username password agent_name verify
             (p : plural) (q : obj (member p)) returnElements w0,
        remote w0
          (posts w0 ++
           [post_of service_url username password agent_name verify
              (expected_rpc p q (default "id-only" returnElements))])%list
          = requests.Answered resp ->
        400 <= requests.status_code resp < 600 ->
        fst (get p (StoreClient_new service_url username password
                      agent_name verify) q returnElements w0)
        = Raised (HTTPError resp)).
Proof.
  intros Hanswer. split; [|split].
  - intros Hcode. rewrite send_run. cbn zeta. rewrite Hanswer.
    now rewrite bool_decide_eq_true_2.
  - intros Hcode. rewrite send_run. cbn zeta. rewrite Hanswer.
    now rewrite bool_decide_eq_false_2.
  - intros service_url username password agent_name verify p q
      returnElements w0 Hanswer0 Hcode.
    rewrite getter_unfold. unfold bind. rewrite request_run. cbn zeta.
    rewrite Hanswer0. now rewrite bool_decide_eq_true_2.
Qed.

End getters.

(** ** The properties at work on the small instance *)

Lemma store_exception_on_other_codes_witness :
  let reply := {| Result := -425; SuppMsgOut := "note"; XMLout := "" |} in
  _parse_reply (binding := demo.binding) reply
    = Raised (StoreException "-425: note" reply)
  /\ contains "-425" "-425: note"
  /\ contains "note" "-425: note"
  /\ fst (getter (binding := demo.binding) demo.envelope demo.soap_headers
            demo.unmarshal demo.urlopen logs demo.store "<log/>" None
            (demo.world_answering
               (requests.Answered (demo.response 200 "7" ""))))
     = Raised (StoreException "-425: note" reply).
Proof.
  intros reply.
  destruct (store_exception_on_other_codes demo.envelope demo.soap_headers
              demo.unmarshal demo.urlopen (binding := demo.binding) reply
              ltac:(discriminate) ltac:(discriminate))
    as (Hparse & Hcode & Hmsg & _ & Hget).
  split; [exact Hparse|]. split; [exact Hcode|]. split; [exact Hmsg|].
  erewrite (Hget logs demo.store "<log/>" None); [reflexivity|].
  vm_compute. reflexivity.
Defined.

Lemma parse_reply_on_success_codes_witness :
  _parse_reply (binding := demo.binding)
    {| Result := 2; SuppMsgOut := ""; XMLout := "<logs/>" |}
  = Returned "<logs/>"
  /\ _parse_reply (binding := demo.binding)
       {| Result := 1; SuppMsgOut := "done"; XMLout := "<logs/>" |}
     = _parse_reply (binding := demo.binding)
         {| Result := 2; SuppMsgOut := ""; XMLout := "<logs/>" |}.
Proof.
  destruct (parse_reply_on_success_codes (binding := demo.binding)
              {| Result := 2; SuppMsgOut := ""; XMLout := "<logs/>" |}
              (or_intror eq_refl))
    as (_ & Hdoc & _ & Hsame).
  split.
  - apply Hdoc. reflexivity.
  - apply (Hsame {| Result := 1; SuppMsgOut := "done"; XMLout := "<logs/>" |}).
    + left. reflexivity.
    + reflexivity.
Defined.

Lemma getter_round_trip_witness :
  let w := demo.world_answering
             (requests.Answered (demo.response 200 "2" "<logs/>")) in
  getter (binding := demo.binding) demo.envelope demo.soap_headers
    demo.unmarshal demo.urlopen logs demo.store "<log uid='7'/>" (Some "all") w
  = (Returned "<logs/>",
     after_call w
       (expected_rpc (binding := demo.binding) logs "<log uid='7'/>" "all")
       (store_post "file:WMLS.WSDL" demo.envelope demo.soap_headers
          "https://store/wmls" "user" "secret" None None
          (expected_rpc (binding := demo.binding) logs "<log uid='7'/>"
             "all"))).
Proof.
  intros w.
  refine (proj2 (proj2 (proj2 (proj2
    (getter_round_trip demo.envelope demo.soap_headers demo.unmarshal
       demo.urlopen (binding := demo.binding) logs demo.store
       "<log uid='7'/>" "all" w _
       {| Result := 2; SuppMsgOut := "note"; XMLout := "<logs/>" |}
       (or_intror eq_refl) _)))) "<logs/>" _).
  - vm_compute. reflexivity.
  - reflexivity.
Defined.

Lemma invalid_document_propagates_witness :
  _parse_reply (binding := demo.binding)
    {| Result := 1; SuppMsgOut := ""; XMLout := "" |}
  = Raised (PyxbException "empty document")
  /\ fst (getter (binding := demo.binding) demo.envelope demo.soap_headers
            demo.unmarshal demo.urlopen wellbores demo.store "<wellbore/>"
            (Some "all")
            (demo.world_answering
               (requests.Answered (demo.response 200 "1" ""))))
     = Raised (PyxbException "empty document").
Proof.
  destruct (invalid_document_propagates demo.envelope demo.soap_headers
              demo.unmarshal demo.urlopen (binding := demo.binding)
              {| Result := 1; SuppMsgOut := "note"; XMLout := "" |}
              "empty document" (or_introl eq_refl) eq_refl)
    as (_ & _ & _ & Hget).
  split.
  - apply (invalid_document_propagates demo.envelope demo.soap_headers
             demo.unmarshal demo.urlopen (binding := demo.binding)
             {| Result := 1; SuppMsgOut := ""; XMLout := "" |}
             "empty document" (or_introl eq_refl) eq_refl).
  - erewrite (Hget wellbores demo.store "<wellbore/>" (Some "all"));
      [reflexivity|].
    vm_compute. reflexivity.
Defined.

Lemma send_raises_for_status_witness :
  let t := {| transport_verify := PBool true;
              transport_auth := (PStr "user", PStr "secret");
              transport_options := ∅ |} in
  let rq := {| url := "https://store/wmls"; message := "<q/>";
               headers := ∅ |} in
  fst (send t rq
         (demo.world_answering
            (requests.Answered (demo.response 503 "1" "<logs/>"))))
    = Raised (HTTPError (demo.response 503 "1" "<logs/>"))
  /\ fst (send t rq
            (demo.world_answering
               (requests.Answered (demo.response 200 "1" "<logs/>"))))
     = Returned {| reply_code := 200;
                   reply_headers :=
                     <["Result" := "1"]> {["SuppMsgOut" := "note"]};
                   reply_message := "<logs/>" |}.
Proof.
  intros t rq. split.
  - apply (send_raises_for_status "file:WMLS.WSDL" demo.envelope
             demo.soap_headers demo.unmarshal demo.urlopen
             (binding := demo.binding) t rq
             (demo.world_answering
                (requests.Answered (demo.response 503 "1" "<logs/>")))
             (demo.response 503 "1" "<logs/>") eq_refl).
    simpl. lia.
  - apply (send_raises_for_status "file:WMLS.WSDL" demo.envelope
             demo.soap_headers demo.unmarshal demo.urlopen
             (binding := demo.binding) t rq
             (demo.world_answering
                (requests.Answered (demo.response 200 "1" "<logs/>")))
             (demo.response 200 "1" "<logs/>") eq_refl).
    simpl. lia.
Defined.

(** * Further properties of the module *)

(** ** The message of a StoreException *)








(** ** RequestsTransport.__init__ on arbitrary keyword arguments *)

(** X2: [RequestsTransport.__init__] keeps [verify], [username] and
    [password] away from [HttpAuthenticated.__init__] and hands every other
    keyword argument on unchanged. *)
Theorem transport_init_strips_credentials (kwargs : gmap string pyval)
    (key : string) :
  transport_options (RequestsTransport__init__ kwargs) !! key =
  if decide (key = "verify" \/ key = "username" \/ key = "password")
  then None else kwargs !! key.
Proof.
  unfold RequestsTransport__init__, pop. cbn [transport_options].
  case_decide as Hkey.
  - destruct Hkey as [Hk|[Hk|Hk]]; subst key.
    + rewrite !lookup_delete_ne by discriminate. apply lookup_delete_eq.
    + rewrite lookup_delete_ne by discriminate. apply lookup_delete_eq.
    + apply lookup_delete_eq.
  - rewrite !lookup_delete_ne by (intros <-; tauto). reflexivity.
Qed.


(** ** Every outcome of a getter *)

Section outcomes.

Variable wsdl_url : string.
Variable envelope : rpc -> string.
Variable soap_headers : rpc -> gmap string string.
Variable unmarshal : Reply -> unmarshalled.
Variable urlopen : Request -> M Reply.
Context {binding : witsml_binding}.

Local Abbreviation get := (getter envelope soap_headers unmarshal urlopen).
Local Abbreviation StoreClient_new := (StoreClient__init__ wsdl_url).
Local Abbreviation post_of := (store_post wsdl_url envelope soap_headers).

(** The outcome of a getter of a client made by [StoreClient], decided in
    this order: the connection, the status code, the envelope, the result
    code, the document. *)
Lemma getter_outcome (service_url username password : string)
    (agent_name : option string) (verify : option pyval)
    (p : plural) (q : obj (member p)) (returnElements : option string)
    (w : world) :
  fst (get p (StoreClient_new service_url username password agent_name
                verify) q returnElements w) =
  match remote w
          (posts w ++
           [post_of service_url username password agent_name verify
              (expected_rpc p q (default "id-only" returnElements))])%list
  with
  | requests.Answered resp =>
      if bool_decide (error_status (requests.status_code resp))
      then Raised (HTTPError resp)
      else match unmarshal (reply_of resp) with
           | Unmarshalled reply => _parse_reply reply
           | Fault what => Raised (SudsException what)
           end
  | requests.Failed why => Raised (RequestException why)
  end.
Proof.
  rewrite getter_unfold. unfold bind. rewrite request_run. cbn zeta.
  destruct (remote w _) as [resp|why]; [|reflexivity].
  case_bool_decide; [reflexivity|].
  destruct (unmarshal (reply_of resp)); reflexivity.
Qed.

Lemma parse_reply_cases (reply : store_reply) :
  (Result reply <> 1 /\ Result reply <> 2
   /\ _parse_reply reply = Raised (StoreException__init__ reply))
  \/ ((Result reply = 1 \/ Result reply = 2)
      /\ _parse_reply reply = lift_pyxb (CreateFromDocument (XMLout reply))).
Proof.
  unfold _parse_reply.
  destruct (decide (Result reply = 1)); [right; tauto|].
  destruct (decide (Result reply = 2)); [right; tauto|]. left. tauto.
Qed.

(** X4: when the HTTP request gets no answer (no connection, failed TLS
    verification, timeout), the exception of [requests.post] leaves [send]
    and the getter as it is; the request was attempted once and is not
    repeated. *)
Theorem getter_connection_failure (service_url username password : string)
    (agent_name : option string) (verify : option pyval)
    (p : plural) (q : obj (member p)) (returnElements : option string)
    (w : world) (why : string) :
  let call := expected_rpc p q (default "id-only" returnElements) in
  let c := post_of service_url username password agent_name verify call in
  remote w (posts w ++ [c])%list = requests.Failed why ->
  get p (StoreClient_new service_url username password agent_name verify)
    q returnElements w
  = (Raised (RequestException why), after_call w call c).
Proof.
  intros call c Hfail.
  rewrite (surjective_pairing (get p _ q returnElements w)).
  rewrite getter_outcome, getter_world. fold call. fold c.
  now rewrite Hfail.
Qed.

(** X5: a getter returns a document only if the response had a status code
    outside 400..599, its envelope unmarshalled to a reply with result code
    1 or 2, and the document is what [CreateFromDocument] made of the
    reply's [XMLout]. *)
Theorem getter_returns_only_on_success
    (service_url username password : string)
    (agent_name : option string) (verify : option pyval)
    (p : plural) (q : obj (member p)) (returnElements : option string)
    (w : world) (d : document) :
  fst (get p (StoreClient_new service_url username password agent_name
                verify) q returnElements w) = Returned d ->
  exists resp reply,
    remote w
      (posts w ++
       [post_of service_url username password agent_name verify
          (expected_rpc p q (default "id-only" returnElements))])%list
      = requests.Answered resp
    /\ ~ 400 <= requests.status_code resp < 600
    /\ unmarshal (reply_of resp) = Unmarshalled reply
    /\ (Result reply = 1 \/ Result reply = 2)
    /\ CreateFromDocument (XMLout reply) = Instance d.
Proof.
  rewrite getter_outcome.
  destruct (remote w _) as [resp|why]; [|discriminate].
  case_bool_decide as Hstatus; [discriminate|].
  unfold error_status in Hstatus.
  destruct (unmarshal (reply_of resp)) as [reply|what] eqn:Hreply;
    [|discriminate].
  intros Hparse. exists resp, reply.
  destruct (parse_reply_cases reply) as [(_ & _ & Hp)|(Hcode & Hp)];
    rewrite Hp in Hparse; [discriminate|].
  destruct (CreateFromDocument (XMLout reply)) as [d'|what] eqn:Hdoc;
    [|discriminate].
  injection Hparse as ->. tauto.
Qed.

(** X6: a [StoreException] out of a getter carries the very reply the
    response unmarshalled to; the status code of the response was outside
    400..599, the result code of the reply is neither 1 nor 2, and the
    message is made of that reply. *)
Theorem getter_store_exception_source
    (service_url username password : string)
    (agent_name : option string) (verify : option pyval)
    (p : plural) (q : obj (member p)) (returnElements : option string)
    (w : world) (msg : string) (reply : store_reply) :
  fst (get p (StoreClient_new service_url username password agent_name
                verify) q returnElements w)
    = Raised (StoreException msg reply) ->
  exists resp,
    remote w
      (posts w ++
       [post_of service_url username password agent_name verify
          (expected_rpc p q (default "id-only" returnElements))])%list
      = requests.Answered resp
    /\ ~ 400 <= requests.status_code resp < 600
    /\ unmarshal (reply_of resp) = Unmarshalled reply
    /\ Result reply <> 1 /\ Result reply <> 2
    /\ msg = pretty (Result reply) +:+ ": " +:+ SuppMsgOut reply.
Proof.
  rewrite getter_outcome.
  destruct (remote w _) as [resp|why]; [|discriminate].
  case_bool_decide as Hstatus; [discriminate|].
  unfold error_status in Hstatus.
  destruct (unmarshal (reply_of resp)) as [reply'|what] eqn:Hreply;
    [|discriminate].
  intros Hparse. exists resp.
  destruct (parse_reply_cases reply') as [(H1 & H2 & Hp)|(Hcode & Hp)];
    rewrite Hp in Hparse.
  - unfold StoreException__init__ in Hparse.
    injection Hparse as <- <-. tauto.
  - destruct (CreateFromDocument (XMLout reply')); discriminate.
Qed.

(** X7: an [HTTPError] out of a getter carries the response the remote end
    gave, and the status code of that response is in 400..599; no other
    step of a getter raises it. *)
Theorem getter_http_error_source
    (service_url username password : string)
    (agent_name : option string) (verify : option pyval)
    (p : plural) (q : obj (member p)) (returnElements : option string)
    (w : world) (resp : requests.Response) :
  fst (get p (StoreClient_new service_url username password agent_name
                verify) q returnElements w) = Raised (HTTPError resp) ->
  remote w
    (posts w ++
     [post_of service_url username password agent_name verify
        (expected_rpc p q (default "id-only" returnElements))])%list
    = requests.Answered resp
  /\ 400 <= requests.status_code resp < 600.
Proof.
  rewrite getter_outcome.
  destruct (remote w _) as [resp'|why]; [|discriminate].
  case_bool_decide as Hstatus.
  - intros [= <-]. split; [reflexivity | exact Hstatus].
  - destruct (unmarshal (reply_of resp')) as [reply|what]; [|discriminate].
    destruct (parse_reply_cases reply) as [(_ & _ & Hp)|(_ & Hp)];
      rewrite Hp; [discriminate|].
    destruct (CreateFromDocument (XMLout reply)); discriminate.
Qed.


(** X9: every request of a getter carries the [User-Agent] header with the
    agent name given at construction (['komle'] when none is given), whatever
    headers the SOAP layer adds; the other headers are those of the SOAP
    layer. *)
Theorem getter_user_agent (service_url username password : string)
    (agent_name : option string) (verify : option pyval)
    (p : plural) (q : obj (member p)) (returnElements : option string)
    (w : world) :
  exists c,
    posts (snd (get p (StoreClient_new service_url username password
                         agent_name verify) q returnElements w))
      = (posts w ++ [c])%list
    /\ requests.call_headers c !! "User-Agent"
       = Some (default "komle" agent_name)
    /\ (forall key, key <> "User-Agent" ->
          requests.call_headers c !! key
          = soap_headers (expected_rpc p q (default "id-only" returnElements))
              !! key).
Proof.
  rewrite getter_world. eexists. split; [reflexivity|].
  cbn [post_of store_post expected_post soap_request requests.call_headers
       headers soap_client StoreClient__init__ simple_client set_options
       client_headers].
  split.
  - apply lookup_union_Some_l. apply lookup_singleton_eq.
  - intros key Hkey. rewrite lookup_union_r; [reflexivity|].
    now apply lookup_singleton_ne.
Qed.

(** X10: a [StoreClient] talks through exactly the client [simple_client]
    makes from the same arguments; the defaults of the two signatures
    agree. *)
Theorem store_client_wraps_simple_client
    (service_url username password : string)
    (agent_name : option string) (verify : option pyval) :
  soap_client (StoreClient_new service_url username password agent_name
                 verify)
  = simple_client wsdl_url service_url username password agent_name verify.
Proof. destruct agent_name, verify; reflexivity. Qed.

End outcomes.

(** ** The further properties at work on the small instance *)


Lemma getter_connection_failure_witness :
  let w := demo.world_answering (requests.Failed "connection refused") in
  let call :=
    expected_rpc (binding := demo.binding) trajectorys "<trajectory/>"
      "id-only" in
  getter (binding := demo.binding) demo.envelope demo.soap_headers
    demo.unmarshal demo.urlopen trajectorys demo.store "<trajectory/>" None w
  = (Raised (RequestException "connection refused"),
     after_call w call
       (store_post "file:WMLS.WSDL" demo.envelope demo.soap_headers
          "https://store/wmls" "user" "secret" None None call)).
Proof.
  intros w call.
  apply (getter_connection_failure "file:WMLS.WSDL" demo.envelope
           demo.soap_headers demo.unmarshal demo.urlopen
           (binding := demo.binding) "https://store/wmls" "user" "secret"
           None None trajectorys "<trajectory/>" None w "connection refused").
  reflexivity.
Defined.

Lemma getter_returns_only_on_success_witness :
  let w := demo.world_answering
             (requests.Answered (demo.response 200 "1" "<logs/>")) in
  exists resp reply,
    remote w
      (posts w ++
       [store_post "file:WMLS.WSDL" demo.envelope demo.soap_headers
          "https://store/wmls" "user" "secret" None None
          (expected_rpc (binding := demo.binding) logs "<log/>" "id-only")])%list
      = requests.Answered resp
    /\ ~ 400 <= requests.status_code resp < 600
    /\ demo.unmarshal (reply_of resp) = Unmarshalled reply
    /\ (Result reply = 1 \/ Result reply = 2)
    /\ CreateFromDocument (witsml_binding := demo.binding) (XMLout reply)
       = Instance "<logs/>".
Proof.
  intros w.
  apply (getter_returns_only_on_success "file:WMLS.WSDL" demo.envelope
           demo.soap_headers demo.unmarshal demo.urlopen
           (binding := demo.binding) "https://store/wmls" "user" "secret"
           None None logs "<log/>" None w "<logs/>").
  vm_compute. reflexivity.
Defined.

Lemma getter_store_exception_source_witness :
  let w := demo.world_answering
             (requests.Answered (demo.response 200 "7" "")) in
  let reply := {| Result := -425; SuppMsgOut := "note"; XMLout := "" |} in
  exists resp,
    remote w
      (posts w ++
       [store_post "file:WMLS.WSDL" demo.envelope demo.soap_headers
          "https://store/wmls" "user" "secret" None None
          (expected_rpc (binding := demo.binding) logs "<log/>" "all")])%list
      = requests.Answered resp
    /\ ~ 400 <= requests.status_code resp < 600
    /\ demo.unmarshal (reply_of resp) = Unmarshalled reply
    /\ Result reply <> 1 /\ Result reply <> 2
    /\ "-425: note" = pretty (Result reply) +:+ ": " +:+ SuppMsgOut reply.
Proof.
  intros w reply.
  apply (getter_store_exception_source "file:WMLS.WSDL" demo.envelope
           demo.soap_headers demo.unmarshal demo.urlopen
           (binding := demo.binding) "https://store/wmls" "user" "secret"
           None None logs "<log/>" (Some "all") w "-425: note" reply).
  vm_compute. reflexivity.
Defined.

Lemma getter_http_error_source_witness :
  let w := demo.world_answering
             (requests.Answered (demo.response 401 "1" "<logs/>")) in
  remote w
    (posts w ++
     [store_post "file:WMLS.WSDL" demo.envelope demo.soap_headers
        "https://store/wmls" "user" "secret" None None
        (expected_rpc (binding := demo.binding) logs "<log/>" "id-only")])%list
    = requests.Answered (demo.response 401 "1" "<logs/>")
  /\ 400 <= requests.status_code (demo.response 401 "1" "<logs/>") < 600.
Proof.
  intros w.
  apply (getter_http_error_source "file:WMLS.WSDL" demo.envelope
           demo.soap_headers demo.unmarshal demo.urlopen
           (binding := demo.binding) "https://store/wmls" "user" "secret"
           None None logs "<log/>" None w
           (demo.response 401 "1" "<logs/>")).
  vm_compute. reflexivity.
Defined.

